(** * mx3::sqlite::Db — the connection wrapper and its hook bridge

    A shallow embedding of [src/sqlite/db.hpp] and [src/sqlite/db.cpp].

    The C++ code is a thin layer over the sqlite3 C API.  The engine itself is
    not part of the repository, so it is an interface here ([Sqlite3Api]): an
    abstract engine state with one transition per C function the wrapper calls.
    Every call that crosses the boundary is also appended, with what the engine
    answered, to a trace kept in the [World]; ownership properties (a handle the
    engine handed out is given back) are read off that trace.

    C++ exceptions are the [Threw] outcome of the monad [M]; side effects made
    before a [throw] stay in the world, as they do in C++. *)

From Stdlib Require Import ZArith String List Bool Lia.
Import ListNotations.
Open Scope string_scope.
Open Scope list_scope.
Open Scope Z_scope.

Set Implicit Arguments.

(** ** Constants of [<sqlite3/sqlite3.h>]

    The header is not under [src/]; the wrapper only names its constants, so
    they are the fields of a class.  [sqlite3_h], further down, is the instance
    with the values the published header gives them. *)

Class Sqlite3Header : Type := {
  SQLITE_OK : Z;
  SQLITE_INSERT : Z;
  SQLITE_UPDATE : Z;
  SQLITE_DELETE : Z;
  SQLITE_OPEN_READWRITE : Z;
  SQLITE_OPEN_CREATE : Z;
  SQLITE_OPEN_NOMUTEX : Z;
  SQLITE_OPEN_PRIVATECACHE : Z
}.

(** ** Pointers, exceptions, outcomes *)

(** A non-null address; a C pointer is an [option addr], [None] being
    [nullptr]. *)
Definition addr := N.

Inductive exception : Type :=
| runtime_error (what : string)      (* std::runtime_error *)
| bad_function_call                  (* calling an empty std::function *)
| foreign_exception (tag : string).  (* anything else a closure may throw *)

Inductive Outcome (A : Type) : Type :=
| Returned (a : A)
| Threw (e : exception).
Arguments Returned {A} a.
Arguments Threw {A} e.

(** [enum class ChangeType] of db.hpp. *)
Inductive ChangeType : Type := INSERT | UPDATE | DELETE.

(** ** The boundary with the engine *)

(** One entry per call into the sqlite3 C API, with the arguments passed and
    the values the engine wrote back. *)
Inductive Event : Type :=
| EvOpen (filename : string) (flags : Z) (rc : Z) (ppDb : option addr)
| EvClose (db : addr)
| EvExec (db : option addr) (sql : string) (rc : Z) (errmsg : option string)
| EvPrepare (db : option addr) (sql : string) (nByte : Z) (rc : Z)
            (ppStmt : option addr)
| EvFinalize (stmt : addr)
| EvUpdateHook (db : option addr)
| EvCommitHook (db : option addr)
| EvRollbackHook (db : option addr)
| EvLastInsertRowid (db : option addr) (rowid : Z).

(** The engine: its state [E] and what each C function does to it.  Nothing is
    assumed about the answers. *)
Class Sqlite3Api (E : Type) : Type := {
  engine_open_v2 : string -> Z -> E -> Z * option addr * E;
  engine_close_v2 : addr -> E -> E;
  engine_errstr : Z -> string;
  engine_exec : option addr -> string -> E -> Z * option string * E;
  engine_prepare_v2 : option addr -> string -> Z -> E -> Z * option addr * E;
  engine_finalize : addr -> E -> E;
  engine_update_hook : option addr -> E -> E;
  engine_commit_hook : option addr -> E -> E;
  engine_rollback_hook : option addr -> E -> E;
  engine_last_insert_rowid : option addr -> E -> Z
}.

(** The world a call runs in: the engine, the trace of boundary crossings, and
    the application state [U] that the caller's closures capture. *)
Record World (E U : Type) : Type := mkWorld {
  engine : E;
  trace : list Event;
  app : U
}.

(** ** The monad of C++ computations *)

Definition M (E U A : Type) : Type := World E U -> Outcome A * World E U.

Definition ret {E U A} (a : A) : M E U A := fun w => (Returned a, w).

Definition throw {E U A} (e : exception) : M E U A := fun w => (Threw e, w).

Definition bind {E U A B} (c : M E U A) (k : A -> M E U B) : M E U B :=
  fun w =>
    match c w with
    | (Returned a, w') => k a w'
    | (Threw e, w') => (Threw e, w')
    end.

Declare Scope cpp_scope.
Delimit Scope cpp_scope with cpp.
Notation "x <- c ;; k" := (bind c (fun x => k))
  (at level 61, c at next level, right associativity) : cpp_scope.
Notation "' pat <- c ;; k" := (bind c (fun x => match x with pat => k end))
  (at level 61, pat pattern, c at next level, right associativity) : cpp_scope.
Notation "c ;;; k" := (bind c (fun _ => k))
  (at level 61, right associativity) : cpp_scope.
Open Scope cpp_scope.

(** A local object with a destructor, over the rest of its scope: when [body]
    leaves by an exception the destructor runs during unwinding and the
    exception goes on.  When [body] returns, ownership has been moved out (every
    use below returns the object it guards) and the moved-from object's
    destructor has nothing to do. *)
Definition on_unwind {E U A} (dtor : M E U unit) (body : M E U A) : M E U A :=
  fun w =>
    match body w with
    | (Returned a, w') => (Returned a, w')
    | (Threw e, w') => (Threw e, snd (dtor w'))
    end.

(** ** std::function

    A [std::function<T>] is either empty or holds a callable. *)
Definition function (T : Type) : Type := option T.

(** [explicit operator bool]. *)
Definition function_bool {T} (f : function T) : bool :=
  match f with Some _ => true | None => false end.

(** [operator()]: an empty function throws [std::bad_function_call]. *)
Definition function_call {E U T A} (f : function T) (args : T -> M E U A)
  : M E U A :=
  match f with
  | Some callee => args callee
  | None => throw bad_function_call
  end.

(** [std::string::c_str] as the C side reads it: the bytes before the first
    zero byte. *)
Fixpoint c_str (s : string) : string :=
  match s with
  | EmptyString => EmptyString
  | String c rest =>
      if Ascii.eqb c Ascii.zero then EmptyString else String c (c_str rest)
  end.

(** A pointer in a condition: true when it is not [nullptr]. *)
Definition non_null {T} (p : option T) : bool :=
  match p with Some _ => true | None => false end.

(** [static_cast<int>] of a size, and [static_cast<int64_t>] of an
    [sqlite3_int64]: two's complement wrap-around. *)
Definition wrap (bits : Z) (z : Z) : Z :=
  (z + 2 ^ (bits - 1)) mod 2 ^ bits - 2 ^ (bits - 1).

Definition static_cast_int (z : Z) : Z := wrap 32 z.
Definition static_cast_int64 (z : Z) : Z := wrap 64 z.

Section Wrapper.

Context {hdr : Sqlite3Header} {E U : Type} {api : Sqlite3Api E}.

Local Abbreviation M := (M E U).

(** ** Calls into the engine, recorded *)

Definition record (ev : Event) (e' : E) (w : World E U) : World E U :=
  {| engine := e'; trace := trace w ++ [ev]; app := app w |}.

Definition sqlite3_open_v2 (filename : string) (flags : Z)
  : M (Z * option addr) :=
  fun w =>
    let '(rc, ppDb, e') := engine_open_v2 filename flags (engine w) in
    (Returned (rc, ppDb), record (EvOpen filename flags rc ppDb) e' w).

Definition sqlite3_close_v2 (db : addr) : M unit :=
  fun w => (Returned tt, record (EvClose db) (engine_close_v2 db (engine w)) w).

Definition sqlite3_errstr (rc : Z) : string := engine_errstr rc.

(** The hooks the engine fires while it executes are not part of this call:
    a firing is a call of one of the trampolines below. *)
Definition sqlite3_exec (db : option addr) (sql : string)
  : M (Z * option string) :=
  fun w =>
    let '(rc, errmsg, e') := engine_exec db sql (engine w) in
    (Returned (rc, errmsg), record (EvExec db sql rc errmsg) e' w).

Definition sqlite3_prepare_v2 (db : option addr) (sql : string) (nByte : Z)
  : M (Z * option addr) :=
  fun w =>
    let '(rc, ppStmt, e') := engine_prepare_v2 db sql nByte (engine w) in
    (Returned (rc, ppStmt), record (EvPrepare db sql nByte rc ppStmt) e' w).

Definition sqlite3_finalize (stmt : addr) : M unit :=
  fun w =>
    (Returned tt, record (EvFinalize stmt) (engine_finalize stmt (engine w)) w).

Definition sqlite3_update_hook (db : option addr) : M unit :=
  fun w =>
    (Returned tt, record (EvUpdateHook db) (engine_update_hook db (engine w)) w).

Definition sqlite3_commit_hook (db : option addr) : M unit :=
  fun w =>
    (Returned tt, record (EvCommitHook db) (engine_commit_hook db (engine w)) w).

Definition sqlite3_rollback_hook (db : option addr) : M unit :=
  fun w =>
    (Returned tt,
     record (EvRollbackHook db) (engine_rollback_hook db (engine w)) w).

Definition sqlite3_last_insert_rowid (db : option addr) : M Z :=
  fun w =>
    let rowid := engine_last_insert_rowid db (engine w) in
    (Returned rowid, record (EvLastInsertRowid db rowid) (engine w) w).

(** ** class Db *)

(** The three closure types.  A closure is a computation on the world: it may
    change the application state, call the engine, and throw.  The [Db] object
    is passed by value below, so a closure that registers hooks on its own
    connection while it runs is outside this model. *)
Definition UpdateHookFn : Type :=
  function (ChangeType -> string -> string -> Z -> M unit).
Definition CommitHookFn : Type := function (M bool).
Definition RollbackHookFn : Type := function (M unit).

(** The data members.  [m_db] is the [unique_ptr<sqlite3, Closer>]: the
    address it owns, or [None] when it holds [nullptr]. *)
Record Db : Type := mkDb {
  m_db : option addr;
  m_update_hook : UpdateHookFn;
  m_commit_hook : CommitHookFn;
  m_rollback_hook : RollbackHookFn
}.

(** [Db::Closer::operator()]. *)
Definition Closer (db : addr) : M unit := sqlite3_close_v2 db.

(** [~unique_ptr<sqlite3, Closer>]: the deleter runs only on a non-null
    pointer. *)
Definition unique_ptr_dtor (p : option addr) : M unit :=
  match p with
  | Some db => Closer db
  | None => ret tt
  end.

(** [Db::Db(unique_ptr<sqlite3, Closer> db)]: the three hooks are
    default-constructed, that is, empty. *)
Definition Db_ctor (db : option addr) : Db :=
  {| m_db := db;
     m_update_hook := None;
     m_commit_hook := None;
     m_rollback_hook := None |}.

(** The destructor of [Db], which the class leaves implicit: the members go in
    reverse order of declaration, the three [std::function] objects first and
    [m_db] last, whose deleter is [Closer]. *)
Definition Db_dtor (self : Db) : M unit := unique_ptr_dtor (m_db self).

(** The flags [Db::open] computes. *)
Definition open_flags : Z :=
  Z.lor (Z.lor (Z.lor SQLITE_OPEN_READWRITE SQLITE_OPEN_CREATE)
               SQLITE_OPEN_NOMUTEX)
        SQLITE_OPEN_PRIVATECACHE.

(** [Db::open]. *)
Definition open (db_path : string) : M Db :=
  let flags := open_flags in
  '(error_code, db) <- sqlite3_open_v2 (c_str db_path) flags ;;
  let temp_db := db in
  on_unwind (unique_ptr_dtor temp_db)
    (if negb (error_code =? SQLITE_OK)
     then throw (runtime_error (sqlite3_errstr error_code))
     else ret (Db_ctor temp_db)).

(** [Db::open_memory]. *)
Definition open_memory : M Db := open ":memory:".

(** [Db::inherit_db]. *)
Definition inherit_db (db : option addr) : M Db :=
  let temp_db := db in
  ret (Db_ctor temp_db).

(** [Db::borrow_db]. *)
Definition borrow_db (self : Db) : option addr := m_db self.

(** [Db::last_insert_rowid]. *)
Definition last_insert_rowid (self : Db) : M Z :=
  sqlite3_last_insert_rowid (m_db self).

(** [Db::exec]. *)
Definition exec (sql : string) (self : Db) : M unit :=
  '(result, error_msg) <- sqlite3_exec (m_db self) (c_str sql) ;;
  if negb (result =? 0) && non_null error_msg then
    match error_msg with
    | Some msg => throw (runtime_error msg)
    | None => throw (runtime_error "Unknown error")
    end
  else ret tt.

(** ** class Stmt (boundary only) *)

(** Modelled from the spec: [stmt.hpp] and its implementation are not under
    [src/].  A Statement has two attributes, the native statement resource and
    a strong reference to its owning Connection. *)
Record Stmt : Type := mkStmt {
  stmt_native : option addr;
  stmt_db : Db
}.

(** Modelled from the spec: the constructor [Db::prepare] calls,
    [Stmt {stmt, this->shared_from_this()}], is missing with the class; it
    pairs the native statement resource with the reference to the Connection. *)
Definition Stmt_ctor (stmt : option addr) (db : Db) : Stmt :=
  {| stmt_native := stmt; stmt_db := db |}.

(** Modelled from the spec: the destructor of [Stmt] is missing with the class.
    A Statement is destroyed by releasing the native statement resource and
    the reference to the Connection; a Statement that holds no native resource
    has none to release.  It is used in [prepare] only, where the reference
    it gives up is not the last one (the caller holds the Connection), so no
    Connection is closed by it. *)
Definition Stmt_dtor (s : Stmt) : M unit :=
  match stmt_native s with
  | Some stmt => sqlite3_finalize stmt
  | None => ret tt
  end.

(** [Db::prepare].  [wrapped_stmt] is the local [shared_ptr<Stmt>], the only
    owner of [raw_stmt]: on the throwing path its destructor deletes the
    [Stmt]. *)
Definition prepare (sql : string) (self : Db) : M Stmt :=
  '(error_code, stmt) <-
     sqlite3_prepare_v2 (m_db self) (c_str sql)
       (static_cast_int (Z.of_nat (String.length sql))) ;;
  let raw_stmt := Stmt_ctor stmt self in
  let wrapped_stmt := raw_stmt in
  on_unwind (Stmt_dtor wrapped_stmt)
    (if negb (error_code =? SQLITE_OK)
     then throw (runtime_error (sqlite3_errstr error_code))
     else ret wrapped_stmt).

(** ** Hook registration and the trampolines

    Each registration stores the closure in the object and hands the engine a
    captureless lambda together with [this].  The lambda is the trampoline; the
    engine calls it with the context pointer, which is the [Db] as it is at that
    moment, here the [self] argument. *)

(** The [switch] over [change_type]; [None] is the [nullopt] that [type]
    starts with and keeps when no label matches. *)
Definition change_type_switch (change_type : Z) : option ChangeType :=
  if change_type =? SQLITE_INSERT then Some INSERT
  else if change_type =? SQLITE_UPDATE then Some UPDATE
  else if change_type =? SQLITE_DELETE then Some DELETE
  else None.

(** The lambda of [Db::update_hook]. *)
Definition update_trampoline (self : Db) (change_type : Z)
    (db_name table_name : string) (row_id : Z) : M unit :=
  let db := self in
  if function_bool (m_update_hook db) then
    let update_hook := m_update_hook db in
    let type := change_type_switch change_type in
    match type with
    | None => throw (runtime_error "Unexpected update type from sqlite")
    | Some type =>
        function_call update_hook
          (fun callee =>
             callee type db_name table_name (static_cast_int64 row_id))
    end
  else ret tt.

(** [Db::update_hook]. *)
Definition update_hook (update_fn : UpdateHookFn) (self : Db) : M Db :=
  let self :=
    {| m_db := m_db self;
       m_update_hook := update_fn;
       m_commit_hook := m_commit_hook self;
       m_rollback_hook := m_rollback_hook self |} in
  sqlite3_update_hook (m_db self) ;;;
  ret self.

(** The lambda of [Db::commit_hook]; it returns the [int] the engine reads. *)
Definition commit_trampoline (self : Db) : M Z :=
  let db := self in
  if function_bool (m_commit_hook db) then
    let commit_hook := m_commit_hook db in
    result <- function_call commit_hook (fun callee => callee) ;;
    ret (if result : bool then 0 else 1)
  else ret 0.

(** [Db::commit_hook]. *)
Definition commit_hook (commit_fn : CommitHookFn) (self : Db) : M Db :=
  let self :=
    {| m_db := m_db self;
       m_update_hook := m_update_hook self;
       m_commit_hook := commit_fn;
       m_rollback_hook := m_rollback_hook self |} in
  sqlite3_commit_hook (m_db self) ;;;
  ret self.

(** The lambda of [Db::rollback_hook]. *)
Definition rollback_trampoline (self : Db) : M unit :=
  let db := self in
  if function_bool (m_rollback_hook db) then
    let rollback_hook := m_rollback_hook db in
    function_call rollback_hook (fun callee => callee)
  else ret tt.

(** [Db::rollback_hook]. *)
Definition rollback_hook (rollback_fn : RollbackHookFn) (self : Db) : M Db :=
  let self :=
    {| m_db := m_db self;
       m_update_hook := m_update_hook self;
       m_commit_hook := m_commit_hook self;
       m_rollback_hook := rollback_fn |} in
  sqlite3_rollback_hook (m_db self) ;;;
  ret self.

(** A caller that registers the closures of a list one after the other. *)
Fixpoint register_each {F : Type} (register : F -> Db -> M Db)
    (fns : list F) (self : Db) : M Db :=
  match fns with
  | [] => ret self
  | fn :: rest => self' <- register fn self ;; register_each register rest self'
  end.

(** ** Handles outstanding after a trace

    The connection handles the engine has handed out through [sqlite3_open_v2]
    and not had back through [sqlite3_close_v2], and the same for statements
    with [sqlite3_prepare_v2] and [sqlite3_finalize]; a handle is counted as
    many times as it was handed out. *)

Fixpoint remove_one (a : addr) (l : list addr) : list addr :=
  match l with
  | [] => []
  | b :: l' => if N.eqb a b then l' else b :: remove_one a l'
  end.

Definition step_dbs (held : list addr) (ev : Event) : list addr :=
  match ev with
  | EvOpen _ _ _ (Some db) => db :: held
  | EvClose db => remove_one db held
  | _ => held
  end.

Definition step_stmts (held : list addr) (ev : Event) : list addr :=
  match ev with
  | EvPrepare _ _ _ _ (Some stmt) => stmt :: held
  | EvFinalize stmt => remove_one stmt held
  | _ => held
  end.

Definition outstanding_dbs (t : list Event) : list addr :=
  fold_left step_dbs t [].

Definition outstanding_stmts (t : list Event) : list addr :=
  fold_left step_stmts t [].

End Wrapper.

(** ** A concrete header and a small engine

    Used to run the wrapper on concrete inputs. *)

(** The values of the published [sqlite3.h]. *)
#[export] Instance sqlite3_h : Sqlite3Header := {|
  SQLITE_OK := 0;
  SQLITE_INSERT := 18;
  SQLITE_UPDATE := 23;
  SQLITE_DELETE := 9;
  SQLITE_OPEN_READWRITE := 0x2;
  SQLITE_OPEN_CREATE := 0x4;
  SQLITE_OPEN_NOMUTEX := 0x8000;
  SQLITE_OPEN_PRIVATECACHE := 0x40000
|}.

(** The state of the small engine: the next address it will hand out, and
    whether its allocator is exhausted. *)
Record ToyEngine : Type := mkToy {
  next_addr : N;
  out_of_memory : bool
}.

Definition toy_errstr (rc : Z) : string :=
  if rc =? 0 then "not an error"
  else if rc =? 1 then "SQL logic error"
  else if rc =? 7 then "out of memory"
  else if rc =? 14 then "unable to open database file"
  else if rc =? 21 then "bad parameter or other API misuse"
  else "unknown error".

Definition toy_bump (e : ToyEngine) : ToyEngine :=
  {| next_addr := N.succ (next_addr e); out_of_memory := out_of_memory e |}.

(** It cannot open anything under [/missing/], but still hands out the handle
    that has to be closed; it rejects the text [not valid sql]; a call on a
    null connection is a misuse (21) that writes no message; when memory is
    exhausted a failing [exec] cannot copy its message and answers 7 with a
    null message. *)
#[export] Instance toy_api : Sqlite3Api ToyEngine := {|
  engine_open_v2 filename flags e :=
    if out_of_memory e then (7, None, e)
    else if prefix "/missing/" filename
         then (14, Some (next_addr e), toy_bump e)
         else (0, Some (next_addr e), toy_bump e);
  engine_close_v2 db e := e;
  engine_errstr := toy_errstr;
  engine_exec db sql e :=
    match db with
    | None => (21, None, e)
    | Some _ =>
        if String.eqb sql "not valid sql"
        then if out_of_memory e then (7, None, e)
             else (1, Some "near not: syntax error", e)
        else (0, None, e)
    end;
  engine_prepare_v2 db sql nByte e :=
    match db with
    | None => (21, None, e)
    | Some _ =>
        if String.eqb sql "not valid sql" then (1, None, e)
        else (0, Some (next_addr e), toy_bump e)
    end;
  engine_finalize stmt e := e;
  engine_update_hook db e := e;
  engine_commit_hook db e := e;
  engine_rollback_hook db e := e;
  engine_last_insert_rowid db e := 0
|}.

(** The application state of the examples is a journal the closures write
    to. *)
Definition ToyWorld : Type := World ToyEngine (list string).

Definition toy_world (oom : bool) : ToyWorld :=
  {| engine := {| next_addr := 1; out_of_memory := oom |};
     trace := [];
     app := [] |}.

Definition note {A} (line : string) (a : A) : M ToyEngine (list string) A :=
  fun w =>
    (Returned a,
     {| engine := engine w; trace := trace w; app := app w ++ [line] |}).

Definition change_name (type : ChangeType) : string :=
  match type with
  | INSERT => "INSERT"
  | UPDATE => "UPDATE"
  | DELETE => "DELETE"
  end.

(** An update closure that writes what it was told under its own name. *)
Definition journal_update (who : string)
  : ChangeType -> string -> string -> Z -> M ToyEngine (list string) unit :=
  fun type db_name table_name row_id =>
    note (who ++ ":" ++ change_name type ++ ":" ++ db_name ++ "."
              ++ table_name)%string tt.

(** A commit closure that writes a line and answers [verdict]. *)
Definition journal_commit (who : string) (verdict : bool)
  : M ToyEngine (list string) bool := note who verdict.

(** A rollback closure that writes a line. *)
Definition journal_rollback (who : string)
  : M ToyEngine (list string) unit := note who tt.

(** Closures that write a line and then throw. *)
Definition failing_update
  : ChangeType -> string -> string -> Z -> M ToyEngine (list string) unit :=
  fun _ _ _ _ => note "update" tt ;;; throw (runtime_error "update failed").

Definition failing_commit : M ToyEngine (list string) bool :=
  note "commit" tt ;;; throw (runtime_error "commit failed").

Definition failing_rollback : M ToyEngine (list string) unit :=
  note "rollback" tt ;;; throw (foreign_exception "rollback failed").

(** A connection on handle 1 with the given closures stored. *)
Definition toy_db (u : UpdateHookFn) (c : CommitHookFn) (r : RollbackHookFn)
  : Db (E := ToyEngine) (U := list string) :=
  {| m_db := Some 1%N;
     m_update_hook := u;
     m_commit_hook := c;
     m_rollback_hook := r |}.

(** * Properties *)

(** ** Handles over an extended trace *)

Lemma outstanding_dbs_app (t t' : list Event) :
  outstanding_dbs (t ++ t') = fold_left step_dbs t' (outstanding_dbs t).
Proof. unfold outstanding_dbs. apply fold_left_app. Qed.

Lemma outstanding_stmts_app (t t' : list Event) :
  outstanding_stmts (t ++ t') = fold_left step_stmts t' (outstanding_stmts t).
Proof. unfold outstanding_stmts. apply fold_left_app. Qed.

Lemma remove_one_head (a : addr) (l : list addr) : remove_one a (a :: l) = l.
Proof. simpl. now rewrite N.eqb_refl. Qed.

(** The last element of a list that starts with [a], with any default, is the
    last element of its tail with [a] for default. *)
Lemma last_cons_default {A} (l : list A) : forall a d,
  last (a :: l) d = last l a.
Proof.
  induction l as [|b l IH]; intros a d; [reflexivity|].
  change (last (a :: b :: l) d) with (last (b :: l) d).
  now rewrite !IH.
Qed.

Section ExecFacts.

Context {hdr : Sqlite3Header} {E U : Type} {api : Sqlite3Api E}.

Implicit Types (w : World E U) (self : Db (E := E) (U := U)).

(** ** Db::exec *)

(** What [exec] does with each answer of [sqlite3_exec]: it throws only when
    the status is non-zero and a message came with it. *)
Lemma exec_outcome sql self w rc errmsg e' :
  engine_exec (m_db self) (c_str sql) (engine w) = (rc, errmsg, e') ->
  exec sql self w =
    (match errmsg with
     | Some msg => if rc =? 0 then Returned tt else Threw (runtime_error msg)
     | None => Returned tt
     end,
     record (EvExec (m_db self) (c_str sql) rc errmsg) e' w).
Proof.
  intros Hexec. unfold exec, bind, sqlite3_exec. rewrite Hexec.
  destruct errmsg as [msg|]; destruct (rc =? 0); reflexivity.
Qed.

(** A non-zero status that comes with a message is thrown with that message. *)
Lemma exec_throws_message sql self w rc msg e' :
  engine_exec (m_db self) (c_str sql) (engine w) = (rc, Some msg, e') ->
  rc <> 0 ->
  fst (exec sql self w) = Threw (runtime_error msg).
Proof.
  intros Hexec Hrc. rewrite (exec_outcome _ _ _ Hexec). simpl.
  destruct (Z.eqb_spec rc 0); [contradiction | reflexivity].
Qed.

(** A status that comes without a message is dropped, whatever it is: the
    alternative that throws ["Unknown error"] is never reached. *)
Lemma exec_null_message_returns sql self w rc e' :
  engine_exec (m_db self) (c_str sql) (engine w) = (rc, None, e') ->
  fst (exec sql self w) = Returned tt.
Proof. intros Hexec. now rewrite (exec_outcome _ _ _ Hexec). Qed.

End ExecFacts.

(** C1 (the code departs from the specification).  Specified: whenever the
    engine's exec call answers a non-success status, [exec] raises an error
    carrying the engine's message and never returns normally.  On the code: the
    engine rejects the SQL but, being out of memory, cannot copy its message,
    so it answers status 7 (not [SQLITE_OK]) with a null message; [Db::exec]
    then returns normally and the status is lost. *)
Theorem exec_drops_status_without_message :
  let w := toy_world true in
  let db := toy_db None None None in
  engine_exec (m_db db) "not valid sql" (engine w) = (7, None, engine w)
  /\ 7 <> SQLITE_OK
  /\ fst (exec "not valid sql" db w) = Returned tt.
Proof.
  cbv zeta. split; [reflexivity | split; [discriminate | reflexivity]].
Qed.

(** ** Db::open *)

Section OpenFacts.

Context {hdr : Sqlite3Header} {E U : Type} {api : Sqlite3Api E}.

Implicit Types (w : World E U).

(** What [open] does with each answer of [sqlite3_open_v2]; the events it adds
    to the trace are that call and, on a failure, the [sqlite3_close_v2] of the
    handle that came back, if one did. *)
Lemma open_outcome db_path w rc ppDb e' :
  engine_open_v2 (c_str db_path) open_flags (engine w) = (rc, ppDb, e') ->
  fst (open (U := U) db_path w) =
    (if rc =? SQLITE_OK then Returned (Db_ctor ppDb)
     else Threw (runtime_error (sqlite3_errstr rc)))
  /\ trace (snd (open db_path w)) =
       trace w ++ EvOpen (c_str db_path) open_flags rc ppDb ::
                  (if rc =? SQLITE_OK then []
                   else match ppDb with Some db => [EvClose db] | None => [] end)
  /\ app (snd (open db_path w)) = app w.
Proof.
  intros Hopen.
  unfold open, bind, on_unwind, sqlite3_open_v2.
  rewrite Hopen.
  destruct (rc =? SQLITE_OK); simpl.
  - auto.
  - destruct ppDb as [db|]; simpl.
    + rewrite <- app_assoc. auto.
    + auto.
Qed.

(** C5.  When the engine's open call answers a non-success status, [open]
    throws the error that carries the engine's diagnostic string for that
    status, so no [Db] is produced, and the handle the engine left behind, if
    any, has been closed by then: the connection handles outstanding after the
    call are those outstanding before it. *)
Theorem open_failure_closes_handle db_path w rc ppDb e' :
  engine_open_v2 (c_str db_path) open_flags (engine w) = (rc, ppDb, e') ->
  rc <> SQLITE_OK ->
  fst (open (U := U) db_path w) = Threw (runtime_error (sqlite3_errstr rc))
  /\ trace (snd (open db_path w)) =
       trace w ++ EvOpen (c_str db_path) open_flags rc ppDb ::
                  match ppDb with Some db => [EvClose db] | None => [] end
  /\ outstanding_dbs (trace (snd (open db_path w))) = outstanding_dbs (trace w).
Proof.
  intros Hopen Hrc.
  destruct (open_outcome _ _ Hopen) as (Hout & Htrace & _).
  destruct (Z.eqb_spec rc SQLITE_OK) as [|_]; [contradiction|].
  repeat split; try assumption.
  rewrite Htrace, outstanding_dbs_app.
  destruct ppDb as [db|]; simpl; [apply remove_one_head | reflexivity].
Qed.

(** C9.  For every path, [open] calls the engine's open exactly once, with that
    path as a C string and a flags word in which a bit is set exactly when it is set in one
    of the four options read-write, create, no-mutex and private-cache. *)
Theorem open_passes_the_four_flags db_path w :
  exists flags rc ppDb closes,
    trace (snd (open (U := U) db_path w)) =
      trace w ++ EvOpen (c_str db_path) flags rc ppDb :: closes
    /\ (forall ev, In ev closes -> exists db, ev = EvClose db)
    /\ flags =
         Z.lor (Z.lor (Z.lor SQLITE_OPEN_READWRITE SQLITE_OPEN_CREATE)
                      SQLITE_OPEN_NOMUTEX) SQLITE_OPEN_PRIVATECACHE
    /\ forall i,
         Z.testbit flags i =
           Z.testbit SQLITE_OPEN_READWRITE i || Z.testbit SQLITE_OPEN_CREATE i
           || Z.testbit SQLITE_OPEN_NOMUTEX i
           || Z.testbit SQLITE_OPEN_PRIVATECACHE i.
Proof.
  destruct (engine_open_v2 (c_str db_path) open_flags (engine w))
    as [[rc ppDb] e'] eqn:Hopen.
  destruct (open_outcome _ _ Hopen) as (_ & Htrace & _).
  exists open_flags, rc, ppDb.
  eexists. split; [exact Htrace|]. split; [|split].
  - intros ev Hin. destruct (rc =? SQLITE_OK); [contradiction|].
    destruct ppDb as [db|]; [|contradiction].
    destruct Hin as [<-|[]]. now exists db.
  - reflexivity.
  - intros i. unfold open_flags. now rewrite !Z.lor_spec.
Qed.

End OpenFacts.

(** ** Db::prepare *)

Section PrepareFacts.

Context {hdr : Sqlite3Header} {E U : Type} {api : Sqlite3Api E}.

Implicit Types (w : World E U) (self : Db (E := E) (U := U)).

(** What [prepare] does with each answer of [sqlite3_prepare_v2]. *)
Lemma prepare_outcome sql self w rc ppStmt e' :
  engine_prepare_v2 (m_db self) (c_str sql)
    (static_cast_int (Z.of_nat (String.length sql))) (engine w)
    = (rc, ppStmt, e') ->
  fst (prepare sql self w) =
    (if rc =? SQLITE_OK then Returned (Stmt_ctor ppStmt self)
     else Threw (runtime_error (sqlite3_errstr rc)))
  /\ trace (snd (prepare sql self w)) =
       trace w ++ EvPrepare (m_db self) (c_str sql)
                    (static_cast_int (Z.of_nat (String.length sql)))
                    rc ppStmt ::
                  (if rc =? SQLITE_OK then []
                   else match ppStmt with
                        | Some stmt => [EvFinalize stmt]
                        | None => []
                        end)
  /\ app (snd (prepare sql self w)) = app w.
Proof.
  intros Hprep.
  unfold prepare, bind, on_unwind, sqlite3_prepare_v2.
  rewrite Hprep.
  destruct (rc =? SQLITE_OK); simpl.
  - auto.
  - destruct ppStmt as [stmt|]; simpl.
    + rewrite <- app_assoc. auto.
    + auto.
Qed.

(** C4.  When the engine's prepare call answers a non-success status,
    [prepare] throws the error that carries the engine's message for that
    status, so no [Stmt] reaches the caller, and nothing allocated stays
    behind: a statement the engine handed out with the failure is finalized, and
    the statements outstanding after the call are those outstanding before
    it. *)
Theorem prepare_failure_leaves_no_statement sql self w rc ppStmt e' :
  engine_prepare_v2 (m_db self) (c_str sql)
    (static_cast_int (Z.of_nat (String.length sql))) (engine w)
    = (rc, ppStmt, e') ->
  rc <> SQLITE_OK ->
  fst (prepare sql self w) = Threw (runtime_error (sqlite3_errstr rc))
  /\ trace (snd (prepare sql self w)) =
       trace w ++ EvPrepare (m_db self) (c_str sql)
                    (static_cast_int (Z.of_nat (String.length sql)))
                    rc ppStmt ::
                  match ppStmt with
                  | Some stmt => [EvFinalize stmt]
                  | None => []
                  end
  /\ outstanding_stmts (trace (snd (prepare sql self w)))
     = outstanding_stmts (trace w).
Proof.
  intros Hprep Hrc.
  destruct (prepare_outcome _ _ _ Hprep) as (Hout & Htrace & _).
  destruct (Z.eqb_spec rc SQLITE_OK) as [|_]; [contradiction|].
  repeat split; try assumption.
  rewrite Htrace, outstanding_stmts_app.
  destruct ppStmt as [stmt|]; simpl; [apply remove_one_head | reflexivity].
Qed.

End PrepareFacts.

(** ** The hook bridge *)

Section HookFacts.

Context {hdr : Sqlite3Header} {E U : Type} {api : Sqlite3Api E}.

Implicit Types (w : World E U) (self : Db (E := E) (U := U)).

Lemma wrap_small bits z :
  0 < bits -> - 2 ^ (bits - 1) <= z < 2 ^ (bits - 1) -> wrap bits z = z.
Proof.
  intros Hbits Hz. unfold wrap.
  assert (Hpow : 2 ^ bits = 2 * 2 ^ (bits - 1)).
  { replace bits with (Z.succ (bits - 1)) at 1 by lia.
    apply Z.pow_succ_r. lia. }
  rewrite Z.mod_small; lia.
Qed.

(** A row id that fits [sqlite3_int64] goes through the cast unchanged. *)
Lemma static_cast_int64_id z :
  - 2 ^ 63 <= z < 2 ^ 63 -> static_cast_int64 z = z.
Proof. intros Hz. unfold static_cast_int64. apply wrap_small; lia. Qed.

(** The trampolines once a callable is stored. *)
Lemma update_trampoline_stored self f change_type db_name table_name row_id :
  m_update_hook self = Some f ->
  update_trampoline self change_type db_name table_name row_id =
    match change_type_switch change_type with
    | None => throw (runtime_error "Unexpected update type from sqlite")
    | Some type => f type db_name table_name (static_cast_int64 row_id)
    end.
Proof.
  intros Hf. unfold update_trampoline. rewrite Hf. simpl.
  now destruct (change_type_switch change_type).
Qed.

Lemma commit_trampoline_stored self f w :
  m_commit_hook self = Some f ->
  commit_trampoline self w =
    match f w with
    | (Returned result, w') => (Returned (if result then 0 else 1), w')
    | (Threw e, w') => (Threw e, w')
    end.
Proof.
  intros Hf. unfold commit_trampoline. rewrite Hf. simpl. unfold bind.
  now destruct (f w) as [[result|e] w'].
Qed.

Lemma rollback_trampoline_stored self f :
  m_rollback_hook self = Some f -> rollback_trampoline self = f.
Proof. intros Hf. unfold rollback_trampoline. now rewrite Hf. Qed.

(** The [switch], label by label; the labels of a [switch] are distinct. *)
Lemma change_type_switch_spec change_type :
  NoDup [SQLITE_INSERT; SQLITE_UPDATE; SQLITE_DELETE] ->
  (change_type = SQLITE_INSERT -> change_type_switch change_type = Some INSERT)
  /\ (change_type = SQLITE_UPDATE ->
      change_type_switch change_type = Some UPDATE)
  /\ (change_type = SQLITE_DELETE ->
      change_type_switch change_type = Some DELETE)
  /\ (change_type <> SQLITE_INSERT -> change_type <> SQLITE_UPDATE ->
      change_type <> SQLITE_DELETE -> change_type_switch change_type = None).
Proof.
  intros Hlabels.
  inversion Hlabels as [|? ? Hi Hrest]; subst.
  inversion Hrest as [|? ? Hu _]; subst.
  simpl in Hi, Hu. unfold change_type_switch.
  repeat split; intros;
    repeat match goal with
           | |- context [?a =? ?b] => destruct (Z.eqb_spec a b)
           end;
    subst; try reflexivity; try congruence; exfalso; intuition congruence.
Qed.

(** C3.  With a closure registered, a change code outside
    {[SQLITE_INSERT], [SQLITE_UPDATE], [SQLITE_DELETE]} makes the update
    trampoline throw its consistency error without running the closure (the
    world is left as it was, whatever the closure is); a code inside it runs
    the closure with the kind of the same name, the database name, the table
    name and the row id. *)
Theorem update_trampoline_translates_code
    self f change_type db_name table_name row_id w :
  NoDup [SQLITE_INSERT; SQLITE_UPDATE; SQLITE_DELETE] ->
  - 2 ^ 63 <= row_id < 2 ^ 63 ->
  m_update_hook self = Some f ->
  (change_type <> SQLITE_INSERT -> change_type <> SQLITE_UPDATE ->
   change_type <> SQLITE_DELETE ->
   update_trampoline self change_type db_name table_name row_id w =
     (Threw (runtime_error "Unexpected update type from sqlite"), w))
  /\ (change_type = SQLITE_INSERT ->
      update_trampoline self change_type db_name table_name row_id w =
        f INSERT db_name table_name row_id w)
  /\ (change_type = SQLITE_UPDATE ->
      update_trampoline self change_type db_name table_name row_id w =
        f UPDATE db_name table_name row_id w)
  /\ (change_type = SQLITE_DELETE ->
      update_trampoline self change_type db_name table_name row_id w =
        f DELETE db_name table_name row_id w).
Proof.
  intros Hlabels Hrow Hf.
  rewrite (update_trampoline_stored _ _ _ _ _ Hf).
  rewrite (static_cast_int64_id Hrow).
  destruct (change_type_switch_spec change_type Hlabels)
    as (Hins & Hupd & Hdel & Hnone).
  repeat split.
  - intros H1 H2 H3. now rewrite Hnone.
  - intros H. now rewrite (Hins H).
  - intros H. now rewrite (Hupd H).
  - intros H. now rewrite (Hdel H).
Qed.

(** C6.  With a commit closure registered that returns, the commit trampoline
    returns with the closure's effects, and its value is 0 exactly when the
    closure returned [true] and non-zero exactly when it returned [false]. *)
Theorem commit_trampoline_allows_iff_true self f w result w' :
  m_commit_hook self = Some f ->
  f w = (Returned result, w') ->
  exists r,
    commit_trampoline self w = (Returned r, w')
    /\ (r = 0 <-> result = true)
    /\ (r <> 0 <-> result = false).
Proof.
  intros Hf Hrun. rewrite (commit_trampoline_stored _ _ Hf), Hrun.
  exists (if result then 0 else 1). split; [reflexivity|].
  destruct result; split; split; intros; congruence || lia || discriminate.
Qed.

(** C2, as the code has it.  The trampolines contain no handler: when the
    registered closure is run and throws, the same exception leaves the
    trampoline, with the effects the closure had made; for commit no value, and
    so no deny, is handed back. *)
Theorem trampoline_lets_closure_exception_out self w e w' :
  (forall f change_type type db_name table_name row_id,
      m_update_hook self = Some f ->
      change_type_switch change_type = Some type ->
      f type db_name table_name (static_cast_int64 row_id) w = (Threw e, w') ->
      update_trampoline self change_type db_name table_name row_id w
        = (Threw e, w'))
  /\ (forall f,
      m_commit_hook self = Some f ->
      f w = (Threw e, w') ->
      commit_trampoline self w = (Threw e, w'))
  /\ (forall f,
      m_rollback_hook self = Some f ->
      f w = (Threw e, w') ->
      rollback_trampoline self w = (Threw e, w')).
Proof.
  repeat split.
  - intros f change_type type db_name table_name row_id Hf Hswitch Hrun.
    now rewrite (update_trampoline_stored _ _ _ _ _ Hf), Hswitch.
  - intros f Hf Hrun. now rewrite (commit_trampoline_stored _ _ Hf), Hrun.
  - intros f Hf Hrun. now rewrite (rollback_trampoline_stored _ Hf).
Qed.

(** C7.  With no closure registered for a kind, the trampoline of that kind
    applies the default: update does nothing, commit returns 0 (allow) and does
    nothing else, rollback does nothing. *)
Theorem unregistered_hook_defaults self w :
  (m_update_hook self = None ->
   forall change_type db_name table_name row_id,
     update_trampoline self change_type db_name table_name row_id w
       = (Returned tt, w))
  /\ (m_commit_hook self = None -> commit_trampoline self w = (Returned 0, w))
  /\ (m_rollback_hook self = None ->
      rollback_trampoline self w = (Returned tt, w)).
Proof.
  repeat split.
  - intros Hnone change_type db_name table_name row_id.
    unfold update_trampoline. now rewrite Hnone.
  - intros Hnone. unfold commit_trampoline. now rewrite Hnone.
  - intros Hnone. unfold rollback_trampoline. now rewrite Hnone.
Qed.

(** Registration never throws, and the object it leaves differs from the one
    it found in the slot of its kind only. *)
Lemma update_hook_outcome fn self w :
  update_hook fn self w =
    (Returned (mkDb (m_db self) fn (m_commit_hook self) (m_rollback_hook self)),
     record (EvUpdateHook (m_db self))
            (engine_update_hook (m_db self) (engine w)) w).
Proof. reflexivity. Qed.

Lemma commit_hook_outcome fn self w :
  commit_hook fn self w =
    (Returned (mkDb (m_db self) (m_update_hook self) fn (m_rollback_hook self)),
     record (EvCommitHook (m_db self))
            (engine_commit_hook (m_db self) (engine w)) w).
Proof. reflexivity. Qed.

Lemma rollback_hook_outcome fn self w :
  rollback_hook fn self w =
    (Returned (mkDb (m_db self) (m_update_hook self) (m_commit_hook self) fn),
     record (EvRollbackHook (m_db self))
            (engine_rollback_hook (m_db self) (engine w)) w).
Proof. reflexivity. Qed.

(** C10.  Storing an empty function object through a registration leaves a
    connection on which the guard keeps the call from being reached: the
    trampoline returns, does nothing, and for commit answers 0; in particular
    it does not throw [bad_function_call]. *)
Theorem empty_function_is_not_called self w w1 :
  (forall change_type db_name table_name row_id,
      exists self' w',
        update_hook None self w = (Returned self', w')
        /\ update_trampoline self' change_type db_name table_name row_id w1
           = (Returned tt, w1))
  /\ (exists self' w',
        commit_hook None self w = (Returned self', w')
        /\ commit_trampoline self' w1 = (Returned 0, w1))
  /\ (exists self' w',
        rollback_hook None self w = (Returned self', w')
        /\ rollback_trampoline self' w1 = (Returned tt, w1)).
Proof.
  repeat split.
  - intros change_type db_name table_name row_id.
    rewrite update_hook_outcome. now eexists _, _.
  - rewrite commit_hook_outcome. now eexists _, _.
  - rewrite rollback_hook_outcome. now eexists _, _.
Qed.

End HookFacts.

(** ** Registering again *)

Section Reregistration.

Context {hdr : Sqlite3Header} {E U : Type} {api : Sqlite3Api E}.

Implicit Types (w : World E U) (self : Db (E := E) (U := U)).

(** A run of registrations of one kind returns, and the slot of that kind
    holds the last closure of the run (what it held before, for an empty
    run). *)
Lemma register_each_update fns : forall self w,
  exists w',
    register_each update_hook fns self w =
      (Returned (mkDb (m_db self) (last fns (m_update_hook self))
                      (m_commit_hook self) (m_rollback_hook self)), w').
Proof.
  induction fns as [|fn rest IH]; intros self w.
  - exists w. now destruct self.
  - cbn [register_each]. unfold bind. rewrite update_hook_outcome.
    destruct (IH (mkDb (m_db self) fn (m_commit_hook self)
                       (m_rollback_hook self))
                 (record (EvUpdateHook (m_db self))
                         (engine_update_hook (m_db self) (engine w)) w))
      as [w' Hrest].
    exists w'. rewrite Hrest. cbn [m_db m_update_hook m_commit_hook
                                   m_rollback_hook].
    now rewrite last_cons_default.
Qed.

Lemma register_each_commit fns : forall self w,
  exists w',
    register_each commit_hook fns self w =
      (Returned (mkDb (m_db self) (m_update_hook self)
                      (last fns (m_commit_hook self))
                      (m_rollback_hook self)), w').
Proof.
  induction fns as [|fn rest IH]; intros self w.
  - exists w. now destruct self.
  - cbn [register_each]. unfold bind. rewrite commit_hook_outcome.
    destruct (IH (mkDb (m_db self) (m_update_hook self) fn
                       (m_rollback_hook self))
                 (record (EvCommitHook (m_db self))
                         (engine_commit_hook (m_db self) (engine w)) w))
      as [w' Hrest].
    exists w'. rewrite Hrest. cbn [m_db m_update_hook m_commit_hook
                                   m_rollback_hook].
    now rewrite last_cons_default.
Qed.

Lemma register_each_rollback fns : forall self w,
  exists w',
    register_each rollback_hook fns self w =
      (Returned (mkDb (m_db self) (m_update_hook self) (m_commit_hook self)
                      (last fns (m_rollback_hook self))), w').
Proof.
  induction fns as [|fn rest IH]; intros self w.
  - exists w. now destruct self.
  - cbn [register_each]. unfold bind. rewrite rollback_hook_outcome.
    destruct (IH (mkDb (m_db self) (m_update_hook self) (m_commit_hook self)
                       fn)
                 (record (EvRollbackHook (m_db self))
                         (engine_rollback_hook (m_db self) (engine w)) w))
      as [w' Hrest].
    exists w'. rewrite Hrest. cbn [m_db m_update_hook m_commit_hook
                                   m_rollback_hook].
    now rewrite last_cons_default.
Qed.

(** C8.  For each kind, after any run of registrations of that kind that ends
    with [fn], the connection is the one it was with [fn] alone in the slot of
    that kind: the closures registered earlier are gone, one closure at most is
    held, and a later firing of the trampoline runs that last closure and no
    other. *)
Theorem registration_replaces_previous self w w1 :
  (forall fns fn,
      exists self' w',
        register_each update_hook (fns ++ [fn]) self w = (Returned self', w')
        /\ self' = mkDb (m_db self) fn (m_commit_hook self)
                        (m_rollback_hook self)
        /\ forall g change_type type db_name table_name row_id,
             fn = Some g ->
             change_type_switch change_type = Some type ->
             update_trampoline self' change_type db_name table_name row_id w1
               = g type db_name table_name (static_cast_int64 row_id) w1)
  /\ (forall fns fn,
      exists self' w',
        register_each commit_hook (fns ++ [fn]) self w = (Returned self', w')
        /\ self' = mkDb (m_db self) (m_update_hook self) fn
                        (m_rollback_hook self)
        /\ forall g,
             fn = Some g ->
             commit_trampoline self' w1 =
               match g w1 with
               | (Returned result, w2) =>
                   (Returned (if result then 0 else 1), w2)
               | (Threw e, w2) => (Threw e, w2)
               end)
  /\ (forall fns fn,
      exists self' w',
        register_each rollback_hook (fns ++ [fn]) self w = (Returned self', w')
        /\ self' = mkDb (m_db self) (m_update_hook self) (m_commit_hook self)
                        fn
        /\ forall g, fn = Some g -> rollback_trampoline self' w1 = g w1).
Proof.
  repeat split.
  - intros fns fn.
    destruct (register_each_update (fns ++ [fn]) self w) as [w' Hrun].
    rewrite last_last in Hrun.
    eexists _, w'. split; [exact Hrun|]. split; [reflexivity|].
    intros g change_type type db_name table_name row_id -> Hswitch.
    erewrite update_trampoline_stored by reflexivity.
    now rewrite Hswitch.
  - intros fns fn.
    destruct (register_each_commit (fns ++ [fn]) self w) as [w' Hrun].
    rewrite last_last in Hrun.
    eexists _, w'. split; [exact Hrun|]. split; [reflexivity|].
    intros g ->. now apply commit_trampoline_stored.
  - intros fns fn.
    destruct (register_each_rollback (fns ++ [fn]) self w) as [w' Hrun].
    rewrite last_last in Hrun.
    eexists _, w'. split; [exact Hrun|]. split; [reflexivity|].
    intros g ->. now erewrite rollback_trampoline_stored by reflexivity.
Qed.

End Reregistration.

(** * Runs on the small engine *)

Lemma sqlite3_h_labels_distinct :
  NoDup [SQLITE_INSERT; SQLITE_UPDATE; SQLITE_DELETE].
Proof. repeat constructor; simpl; intuition discriminate. Qed.

(** With the values of the header the flags word is [0x48006]: bits 1, 2, 15
    and 18, and so neither read-only (bit 0), full-mutex (bit 16) nor
    shared-cache (bit 17). *)
Example open_flags_value :
  open_flags = 0x48006
  /\ Z.testbit open_flags 0 = false
  /\ Z.testbit open_flags 16 = false
  /\ Z.testbit open_flags 17 = false.
Proof. repeat split. Qed.

(** [open] on a path the engine cannot open: the handle that came back with
    status 14 is closed, and the message is the engine's for 14. *)
Lemma open_failure_closes_handle_witness :
  fst (open "/missing/app.db" (toy_world false))
    = Threw (runtime_error "unable to open database file")
  /\ trace (snd (open "/missing/app.db" (toy_world false)))
     = [EvOpen "/missing/app.db" 0x48006 14 (Some 1%N); EvClose 1%N]
  /\ outstanding_dbs (trace (snd (open "/missing/app.db" (toy_world false))))
     = [].
Proof.
  apply (@open_failure_closes_handle sqlite3_h ToyEngine (list string) toy_api
           "/missing/app.db" (toy_world false)
           14 (Some 1%N) {| next_addr := 2; out_of_memory := false |}).
  - reflexivity.
  - simpl. lia.
Defined.

(** [prepare] on text the engine rejects. *)
Lemma prepare_failure_leaves_no_statement_witness :
  fst (prepare "not valid sql" (toy_db None None None) (toy_world false))
    = Threw (runtime_error "SQL logic error")
  /\ trace (snd (prepare "not valid sql" (toy_db None None None)
                         (toy_world false)))
     = [EvPrepare (Some 1%N) "not valid sql" 13 1 None]
  /\ outstanding_stmts
       (trace (snd (prepare "not valid sql" (toy_db None None None)
                            (toy_world false))))
     = [].
Proof.
  apply (@prepare_failure_leaves_no_statement sqlite3_h ToyEngine (list string)
           toy_api "not valid sql" (toy_db None None None)
           (toy_world false) 1 None
           {| next_addr := 1; out_of_memory := false |}).
  - reflexivity.
  - simpl. lia.
Defined.

(** The update trampoline on code 99, which is no change type, and on 18,
    [SQLITE_INSERT]: the first throws and the journal stays empty, the second
    is the closure's own run. *)
Lemma update_trampoline_translates_code_witness :
  update_trampoline (toy_db (Some (journal_update "u")) None None)
                    99 "main" "t" 1 (toy_world false)
    = (Threw (runtime_error "Unexpected update type from sqlite"),
       toy_world false)
  /\ update_trampoline (toy_db (Some (journal_update "u")) None None)
                       18 "main" "t" 1 (toy_world false)
     = journal_update "u" INSERT "main" "t" 1 (toy_world false).
Proof.
  split.
  - apply (@update_trampoline_translates_code sqlite3_h ToyEngine (list string)
             (toy_db (Some (journal_update "u")) None None)
             (journal_update "u") 99 "main" "t" 1 (toy_world false)
             sqlite3_h_labels_distinct).
    + lia.
    + reflexivity.
    + simpl. lia.
    + simpl. lia.
    + simpl. lia.
  - apply (@update_trampoline_translates_code sqlite3_h ToyEngine (list string)
             (toy_db (Some (journal_update "u")) None None)
             (journal_update "u") 18 "main" "t" 1 (toy_world false)
             sqlite3_h_labels_distinct).
    + lia.
    + reflexivity.
    + reflexivity.
Defined.

(** What that second run leaves in the journal. *)
Example update_trampoline_insert_journal :
  app (snd (update_trampoline (toy_db (Some (journal_update "u")) None None)
                              18 "main" "t" 1 (toy_world false)))
    = ["u:INSERT:main.t"].
Proof. reflexivity. Qed.

(** A commit closure that answers [false]: the trampoline hands back 1. *)
Lemma commit_trampoline_allows_iff_true_witness :
  exists r,
    commit_trampoline (toy_db None (Some (journal_commit "c" false)) None)
                      (toy_world false)
      = (Returned r, snd (journal_commit "c" false (toy_world false)))
    /\ (r = 0 <-> false = true)
    /\ (r <> 0 <-> false = false).
Proof.
  apply (@commit_trampoline_allows_iff_true ToyEngine (list string)
           (toy_db None (Some (journal_commit "c" false)) None)
           (journal_commit "c" false) (toy_world false)).
  - reflexivity.
  - reflexivity.
Defined.

Example commit_trampoline_values :
  fst (commit_trampoline (toy_db None (Some (journal_commit "c" true)) None)
                         (toy_world false)) = Returned 0
  /\ fst (commit_trampoline (toy_db None (Some (journal_commit "c" false)) None)
                            (toy_world false)) = Returned 1.
Proof. split; reflexivity. Qed.

(** C2 as specified fails.  Specified: an exception raised inside a registered
    closure never leaves the trampoline; the bridge catches it and, for commit,
    answers deny.  On the code: a commit closure that throws makes the commit
    trampoline itself leave by that exception; no value, deny or other, is
    handed back. *)
Lemma commit_closure_exception_escapes :
  fst (commit_trampoline (toy_db None (Some failing_commit) None)
                         (toy_world false))
    = Threw (runtime_error "commit failed")
  /\ ~ (exists r : Z,
          fst (commit_trampoline (toy_db None (Some failing_commit) None)
                                 (toy_world false)) = Returned r).
Proof.
  split; [reflexivity|]. intros [r Hr]. discriminate Hr.
Qed.

(** The three trampolines on closures that write a line and throw: each
    leaves by the closure's exception, with the line in the journal. *)
Lemma trampoline_lets_closure_exception_out_witness :
  update_trampoline (toy_db (Some failing_update) None None)
                    23 "main" "t" 7 (toy_world false)
    = (Threw (runtime_error "update failed"),
       {| engine := engine (toy_world false); trace := [];
          app := ["update"] |})
  /\ commit_trampoline (toy_db None (Some failing_commit) None)
                       (toy_world false)
     = (Threw (runtime_error "commit failed"),
        {| engine := engine (toy_world false); trace := [];
           app := ["commit"] |})
  /\ rollback_trampoline (toy_db None None (Some failing_rollback))
                         (toy_world false)
     = (Threw (foreign_exception "rollback failed"),
        {| engine := engine (toy_world false); trace := [];
           app := ["rollback"] |}).
Proof.
  split; [|split].
  - apply (proj1 (@trampoline_lets_closure_exception_out sqlite3_h ToyEngine
                    (list string) (toy_db (Some failing_update) None None)
                    (toy_world false) _ _)
                 failing_update 23 UPDATE "main" "t" 7);
      reflexivity.
  - apply (proj1 (proj2 (@trampoline_lets_closure_exception_out sqlite3_h
                           ToyEngine (list string)
                           (toy_db None (Some failing_commit) None)
                           (toy_world false) _ _))
                 failing_commit);
      reflexivity.
  - apply (proj2 (proj2 (@trampoline_lets_closure_exception_out sqlite3_h
                           ToyEngine (list string)
                           (toy_db None None (Some failing_rollback))
                           (toy_world false) _ _))
                 failing_rollback);
      reflexivity.
Defined.

(** A connection as [inherit_db] builds it, with nothing registered. *)
Lemma unregistered_hook_defaults_witness :
  update_trampoline (Db_ctor (Some 1%N)) 18 "main" "t" 1 (toy_world false)
    = (Returned tt, toy_world false)
  /\ commit_trampoline (Db_ctor (Some 1%N)) (toy_world false)
     = (Returned 0, toy_world false)
  /\ rollback_trampoline (Db_ctor (Some 1%N)) (toy_world false)
     = (Returned tt, toy_world false).
Proof.
  destruct (@unregistered_hook_defaults sqlite3_h ToyEngine (list string)
              (Db_ctor (Some 1%N)) (toy_world false)) as (Hu & Hc & Hr).
  split; [|split].
  - apply Hu. reflexivity.
  - apply Hc. reflexivity.
  - apply Hr. reflexivity.
Defined.

(** Two update closures registered one after the other, then a row inserted:
    the connection holds the second, and the firing is the second's run. *)
Lemma registration_replaces_previous_witness :
  exists self' w',
    register_each update_hook
      ([Some (journal_update "old")] ++ [Some (journal_update "new")])
      (Db_ctor (Some 1%N)) (toy_world false) = (Returned self', w')
    /\ self' = toy_db (Some (journal_update "new")) None None
    /\ update_trampoline self' 18 "main" "t" 1 (toy_world false)
       = journal_update "new" INSERT "main" "t"
           (static_cast_int64 1) (toy_world false).
Proof.
  destruct (proj1 (@registration_replaces_previous sqlite3_h ToyEngine
                     (list string) toy_api (Db_ctor (Some 1%N))
                     (toy_world false) (toy_world false))
                  [Some (journal_update "old")] (Some (journal_update "new")))
    as (self' & w' & Hrun & Hself & Hfire).
  exists self', w'. split; [exact Hrun|]. split; [exact Hself|].
  apply Hfire; reflexivity.
Defined.

(** The journal after that firing has the line of the second closure only,
    and the engine saw two registrations. *)
Example reregistered_update_journal :
  let '(_, w') :=
    (self' <- register_each update_hook
                [Some (journal_update "old"); Some (journal_update "new")]
                (Db_ctor (Some 1%N)) ;;
     update_trampoline self' 18 "main" "t" 1) (toy_world false) in
  app w' = ["new:INSERT:main.t"]
  /\ trace w' = [EvUpdateHook (Some 1%N); EvUpdateHook (Some 1%N)].
Proof. split; reflexivity. Qed.

(** A status that comes with a message is thrown with it. *)
Example exec_rejected_sql :
  fst (exec "not valid sql" (toy_db None None None) (toy_world false))
    = Threw (runtime_error "near not: syntax error").
Proof. reflexivity. Qed.

(** A connection adopted from a null handle: the engine answers misuse (21)
    and writes no message, and [exec] returns. *)
Example exec_on_null_handle :
  fst (exec "SELECT 1" (Db_ctor None) (toy_world false))
    = Returned tt.
Proof. reflexivity. Qed.

(** * Further properties of the wrapper *)

(** ** Strings and casts at the boundary *)

(** What follows the first zero byte never reaches the C side. *)
Lemma c_str_app_zero (pre post : string) :
  c_str (pre ++ String Ascii.zero post)%string = c_str pre.
Proof.
  induction pre as [|c pre IH]; simpl.
  - reflexivity.
  - destruct (Ascii.eqb c Ascii.zero); [reflexivity | now rewrite IH].
Qed.

Lemma wrap_range bits z :
  0 < bits -> - 2 ^ (bits - 1) <= wrap bits z < 2 ^ (bits - 1).
Proof.
  intros Hbits. unfold wrap.
  assert (Hpow : 2 ^ bits = 2 * 2 ^ (bits - 1)).
  { replace bits with (Z.succ (bits - 1)) at 1 by lia.
    apply Z.pow_succ_r. lia. }
  assert (Hpos : 0 < 2 ^ (bits - 1)) by (apply Z.pow_pos_nonneg; lia).
  pose proof (Z.mod_pos_bound (z + 2 ^ (bits - 1)) (2 ^ bits)) as Hmod.
  lia.
Qed.

Lemma wrap_congruent bits z :
  0 < bits -> exists k, wrap bits z = z + k * 2 ^ bits.
Proof.
  intros Hbits. unfold wrap.
  assert (Hpos : 0 < 2 ^ bits) by (apply Z.pow_pos_nonneg; lia).
  exists (- ((z + 2 ^ (bits - 1)) / 2 ^ bits)).
  pose proof (Z.div_mod (z + 2 ^ (bits - 1)) (2 ^ bits)) as Hdiv.
  lia.
Qed.

Section OpenMore.

Context {hdr : Sqlite3Header} {E U : Type} {api : Sqlite3Api E}.

Implicit Types (w : World E U) (self : Db (E := E) (U := U)).

(** [open] as one pair, from the engine's answer. *)
Lemma open_run db_path w rc ppDb e' :
  engine_open_v2 (c_str db_path) open_flags (engine w) = (rc, ppDb, e') ->
  open (U := U) db_path w =
    if rc =? SQLITE_OK
    then (Returned (Db_ctor ppDb),
          record (EvOpen (c_str db_path) open_flags rc ppDb) e' w)
    else (Threw (runtime_error (sqlite3_errstr rc)),
          snd (unique_ptr_dtor ppDb
                 (record (EvOpen (c_str db_path) open_flags rc ppDb) e' w))).
Proof.
  intros Hopen. unfold open, bind, on_unwind, sqlite3_open_v2.
  rewrite Hopen. now destruct (rc =? SQLITE_OK).
Qed.

(** X1.  When the engine's open call answers [SQLITE_OK], [open] returns a
    connection that owns the handle the engine wrote, with no closure stored;
    it has made that one engine call and no close, so the handle is now
    outstanding. *)
Theorem open_success_owns_handle db_path w rc ppDb e' :
  engine_open_v2 (c_str db_path) open_flags (engine w) = (rc, ppDb, e') ->
  rc = SQLITE_OK ->
  exists db w',
    open (U := U) db_path w = (Returned db, w')
    /\ borrow_db db = ppDb
    /\ m_update_hook db = None /\ m_commit_hook db = None
    /\ m_rollback_hook db = None
    /\ trace w' = trace w ++ [EvOpen (c_str db_path) open_flags rc ppDb]
    /\ outstanding_dbs (trace w') =
         match ppDb with
         | Some h => h :: outstanding_dbs (trace w)
         | None => outstanding_dbs (trace w)
         end.
Proof.
  intros Hopen Hrc. rewrite (open_run _ _ Hopen).
  destruct (Z.eqb_spec rc SQLITE_OK) as [_|]; [|contradiction].
  eexists _, _. split; [reflexivity|]. repeat split.
  cbn [record trace]. rewrite outstanding_dbs_app.
  now destruct ppDb.
Qed.

(** X2.  [open_memory] is [open] on the file name [:memory:] and fails as
    [open] does: it throws exactly when the engine answers a status other
    than [SQLITE_OK], with the engine's text for that status. *)
Theorem open_memory_outcome w rc ppDb e' :
  engine_open_v2 ":memory:" open_flags (engine w) = (rc, ppDb, e') ->
  (rc = SQLITE_OK -> fst (open_memory (U := U) w) = Returned (Db_ctor ppDb))
  /\ (rc <> SQLITE_OK ->
      fst (open_memory (U := U) w)
        = Threw (runtime_error (sqlite3_errstr rc)))
  /\ exists closes,
       trace (snd (open_memory (U := U) w)) =
         trace w ++ EvOpen ":memory:" open_flags rc ppDb :: closes.
Proof.
  intros Hopen. unfold open_memory.
  rewrite (open_run ":memory:" w Hopen).
  destruct (Z.eqb_spec rc SQLITE_OK) as [Heq|Hne]; repeat split;
    try reflexivity; try contradiction.
  - now exists [].
  - destruct ppDb as [h|]; cbn.
    + exists [EvClose h]. now rewrite <- app_assoc.
    + now exists [].
Qed.

(** X15.  Opening a connection and destroying what was opened leaves the
    outstanding handles as they were, whatever the engine answered: every
    handle [open] took is closed, once, either on its failure path or by the
    destructor of the [Db]. *)
Theorem open_then_destroy_balances db_path w :
  outstanding_dbs
    (trace (snd ((db <- open (U := U) db_path ;; Db_dtor db) w)))
  = outstanding_dbs (trace w).
Proof.
  destruct (engine_open_v2 (c_str db_path) open_flags (engine w))
    as [[rc ppDb] e'] eqn:Hopen.
  unfold bind. rewrite (open_run _ _ Hopen).
  assert (Hpair : forall h t,
             outstanding_dbs
               ((t ++ [EvOpen (c_str db_path) open_flags rc (Some h)])
                  ++ [EvClose h])
             = outstanding_dbs t).
  { intros h t. rewrite <- app_assoc, outstanding_dbs_app.
    apply remove_one_head. }
  assert (Hnone : forall t,
             outstanding_dbs (t ++ [EvOpen (c_str db_path) open_flags rc None])
             = outstanding_dbs t).
  { intros t. now rewrite outstanding_dbs_app. }
  destruct (rc =? SQLITE_OK); destruct ppDb as [h|];
    unfold Db_dtor, Db_ctor, unique_ptr_dtor, Closer, sqlite3_close_v2, ret,
      record;
    cbn [m_db snd trace]; auto.
Qed.

(** X16.  [inherit_db] takes ownership without touching the engine: it hands
    back a connection on the given pointer with no closure stored, and
    destroying that connection closes the pointer once if it is not null and
    makes no call if it is. *)
Theorem inherit_db_takes_ownership (p : option addr) w :
  exists db,
    inherit_db (U := U) p w = (Returned db, w)
    /\ borrow_db db = p
    /\ m_update_hook db = None /\ m_commit_hook db = None
    /\ m_rollback_hook db = None
    /\ trace (snd (Db_dtor db w)) =
         trace w ++ match p with Some h => [EvClose h] | None => [] end.
Proof.
  exists (Db_ctor p). repeat split.
  destruct p as [h|]; cbn; [reflexivity | now rewrite app_nil_r].
Qed.

End OpenMore.

Section ExecPrepareMore.

Context {hdr : Sqlite3Header} {E U : Type} {api : Sqlite3Api E}.

Implicit Types (w : World E U) (self : Db (E := E) (U := U)).


(** X5.  [exec] and [open] hand the engine a C string: what follows the first
    zero byte of the SQL text, or of the path, has no effect on the call. *)
Theorem text_after_zero_byte_is_ignored (pre post : string) self :
  exec (pre ++ String Ascii.zero post)%string self = exec pre self
  /\ open (api := api) (U := U) (pre ++ String Ascii.zero post)%string
     = open pre.
Proof.
  unfold exec, open. now rewrite c_str_app_zero.
Qed.

(** [prepare] as one pair, from the engine's answer. *)
Lemma prepare_run sql self w rc ppStmt e' :
  engine_prepare_v2 (m_db self) (c_str sql)
    (static_cast_int (Z.of_nat (String.length sql))) (engine w)
    = (rc, ppStmt, e') ->
  prepare sql self w =
    let w1 :=
      record (EvPrepare (m_db self) (c_str sql)
                (static_cast_int (Z.of_nat (String.length sql))) rc ppStmt)
             e' w in
    if rc =? SQLITE_OK
    then (Returned (Stmt_ctor ppStmt self), w1)
    else (Threw (runtime_error (sqlite3_errstr rc)),
          snd (Stmt_dtor (Stmt_ctor ppStmt self) w1)).
Proof.
  intros Hprep. unfold prepare, bind, on_unwind, sqlite3_prepare_v2.
  rewrite Hprep. now destruct (rc =? SQLITE_OK).
Qed.

(** X6.  When the engine's prepare call answers [SQLITE_OK], [prepare]
    returns a statement that holds the handle the engine wrote and this
    connection; nothing is finalized, so the handle is now outstanding. *)
Theorem prepare_success_returns_statement sql self w rc ppStmt e' :
  engine_prepare_v2 (m_db self) (c_str sql)
    (static_cast_int (Z.of_nat (String.length sql))) (engine w)
    = (rc, ppStmt, e') ->
  rc = SQLITE_OK ->
  exists s w',
    prepare sql self w = (Returned s, w')
    /\ stmt_native s = ppStmt
    /\ stmt_db s = self
    /\ trace w' =
         trace w ++ [EvPrepare (m_db self) (c_str sql)
                       (static_cast_int (Z.of_nat (String.length sql)))
                       rc ppStmt]
    /\ outstanding_stmts (trace w') =
         match ppStmt with
         | Some h => h :: outstanding_stmts (trace w)
         | None => outstanding_stmts (trace w)
         end.
Proof.
  intros Hprep Hrc. rewrite (prepare_run _ _ _ Hprep). cbv zeta.
  destruct (Z.eqb_spec rc SQLITE_OK) as [_|]; [|contradiction].
  eexists _, _. split; [reflexivity|]. repeat split.
  cbn [record trace]. rewrite outstanding_stmts_app.
  now destruct ppStmt.
Qed.

(** X7.  The length [prepare] passes is the byte length of the SQL text cast
    to [int]: it always fits 32 bits and agrees with the length modulo 2^32,
    and it is the length itself for a text shorter than 2^31 bytes. *)
Theorem prepare_passes_byte_length sql self w :
  exists nByte rc ppStmt rest,
    trace (snd (prepare sql self w)) =
      trace w ++ EvPrepare (m_db self) (c_str sql) nByte rc ppStmt :: rest
    /\ - 2 ^ 31 <= nByte < 2 ^ 31
    /\ (exists k, nByte = Z.of_nat (String.length sql) + k * 2 ^ 32)
    /\ (Z.of_nat (String.length sql) < 2 ^ 31 ->
        nByte = Z.of_nat (String.length sql)).
Proof.
  destruct (engine_prepare_v2 (m_db self) (c_str sql)
              (static_cast_int (Z.of_nat (String.length sql))) (engine w))
    as [[rc ppStmt] e'] eqn:Hprep.
  destruct (prepare_outcome _ _ _ Hprep) as (_ & Htrace & _).
  exists (static_cast_int (Z.of_nat (String.length sql))), rc, ppStmt.
  eexists. split; [exact Htrace|]. unfold static_cast_int.
  split; [apply (@wrap_range 32); lia|].
  split; [apply (@wrap_congruent 32); lia|].
  intros Hlen. apply wrap_small; lia.
Qed.

End ExecPrepareMore.

Section HookMore.

Context {hdr : Sqlite3Header} {E U : Type} {api : Sqlite3Api E}.

Implicit Types (w : World E U) (self : Db (E := E) (U := U)).

(** X14.  With a closure registered, the update trampoline has two ways out
    of its [switch]: the code is none of the three labels and it throws with
    the world as it was, or the code is the label of some kind and the closure
    is run with that very kind.  No kind is ever passed for a code that is not
    its label. *)
Theorem update_trampoline_never_misclassifies
    self f change_type db_name table_name row_id w :
  m_update_hook self = Some f ->
  (change_type <> SQLITE_INSERT /\ change_type <> SQLITE_UPDATE
   /\ change_type <> SQLITE_DELETE
   /\ update_trampoline self change_type db_name table_name row_id w
      = (Threw (runtime_error "Unexpected update type from sqlite"), w))
  \/ (exists type,
        change_type = match type with
                      | INSERT => SQLITE_INSERT
                      | UPDATE => SQLITE_UPDATE
                      | DELETE => SQLITE_DELETE
                      end
        /\ update_trampoline self change_type db_name table_name row_id w
           = f type db_name table_name (static_cast_int64 row_id) w).
Proof.
  intros Hf. rewrite (update_trampoline_stored _ _ _ _ _ Hf).
  unfold change_type_switch.
  destruct (Z.eqb_spec change_type SQLITE_INSERT) as [Hi|Hi];
    [right; now exists INSERT|].
  destruct (Z.eqb_spec change_type SQLITE_UPDATE) as [Hu|Hu];
    [right; now exists UPDATE|].
  destruct (Z.eqb_spec change_type SQLITE_DELETE) as [Hd|Hd];
    [right; now exists DELETE|].
  left. auto.
Qed.

(** X11.  Whatever is registered, a commit trampoline that returns hands the
    engine 0 or 1. *)
Theorem commit_trampoline_returns_zero_or_one self w r w' :
  commit_trampoline self w = (Returned r, w') -> r = 0 \/ r = 1.
Proof.
  destruct (m_commit_hook self) as [f|] eqn:Hf.
  - rewrite (commit_trampoline_stored _ _ Hf).
    destruct (f w) as [[[|]|e] w2]; intros [= <- _]; auto.
  - unfold commit_trampoline. rewrite Hf. intros [= <- _]. auto.
Qed.

(** X12.  A trampoline does nothing to the world of its own: after a firing
    the world is the one before it, or the one the stored closure left. *)
Theorem trampoline_effect_is_the_closure_s self w :
  (forall change_type db_name table_name row_id,
      snd (update_trampoline self change_type db_name table_name row_id w) = w
      \/ exists f type,
           m_update_hook self = Some f
           /\ snd (update_trampoline self change_type db_name table_name
                                     row_id w)
              = snd (f type db_name table_name (static_cast_int64 row_id) w))
  /\ (snd (commit_trampoline self w) = w
      \/ exists f,
           m_commit_hook self = Some f
           /\ snd (commit_trampoline self w) = snd (f w))
  /\ (snd (rollback_trampoline self w) = w
      \/ exists f,
           m_rollback_hook self = Some f
           /\ snd (rollback_trampoline self w) = snd (f w)).
Proof.
  repeat split.
  - intros change_type db_name table_name row_id.
    destruct (m_update_hook self) as [f|] eqn:Hf.
    + rewrite (update_trampoline_stored _ _ _ _ _ Hf).
      destruct (change_type_switch change_type) as [type|].
      * right. now exists f, type.
      * now left.
    + left. unfold update_trampoline. now rewrite Hf.
  - destruct (m_commit_hook self) as [f|] eqn:Hf.
    + right. exists f. split; [reflexivity|].
      rewrite (commit_trampoline_stored _ _ Hf).
      now destruct (f w) as [[result|e] w2].
    + left. unfold commit_trampoline. now rewrite Hf.
  - destruct (m_rollback_hook self) as [f|] eqn:Hf.
    + right. exists f. split; [reflexivity|].
      now rewrite (rollback_trampoline_stored _ Hf).
    + left. unfold rollback_trampoline. now rewrite Hf.
Qed.

(** X13.  An exception that leaves a trampoline was thrown by the stored
    closure on that very firing, the one exception of the bridge's own being
    the update trampoline's error for an unknown code.  So
    [bad_function_call] leaves a trampoline only if a closure threw it. *)
Theorem trampoline_exception_origin self w e w' :
  (forall change_type db_name table_name row_id,
      update_trampoline self change_type db_name table_name row_id w
        = (Threw e, w') ->
      (e = runtime_error "Unexpected update type from sqlite" /\ w' = w
       /\ change_type_switch change_type = None)
      \/ exists f type,
           m_update_hook self = Some f
           /\ f type db_name table_name (static_cast_int64 row_id) w
              = (Threw e, w'))
  /\ (commit_trampoline self w = (Threw e, w') ->
      exists f, m_commit_hook self = Some f /\ f w = (Threw e, w'))
  /\ (rollback_trampoline self w = (Threw e, w') ->
      exists f, m_rollback_hook self = Some f /\ f w = (Threw e, w')).
Proof.
  repeat split.
  - intros change_type db_name table_name row_id.
    destruct (m_update_hook self) as [f|] eqn:Hf.
    + rewrite (update_trampoline_stored _ _ _ _ _ Hf).
      destruct (change_type_switch change_type) as [type|].
      * intros Hrun. right. now exists f, type.
      * intros [= <- <-]. now left.
    + unfold update_trampoline. rewrite Hf. discriminate.
  - destruct (m_commit_hook self) as [f|] eqn:Hf.
    + rewrite (commit_trampoline_stored _ _ Hf).
      destruct (f w) as [[result|e2] w2] eqn:Hrun; [discriminate|].
      intros [= <- <-]. now exists f.
    + unfold commit_trampoline. rewrite Hf. discriminate.
  - destruct (m_rollback_hook self) as [f|] eqn:Hf.
    + rewrite (rollback_trampoline_stored _ Hf). intros Hrun. now exists f.
    + unfold rollback_trampoline. rewrite Hf. discriminate.
Qed.

(** X8.  Registering a closure of one kind leaves the other two kinds as they
    were: their trampolines are the same functions after it as before, and
    the handle is the same. *)
Theorem registration_leaves_other_kinds self w :
  (forall fn, exists self' w',
      update_hook fn self w = (Returned self', w')
      /\ borrow_db self' = borrow_db self
      /\ commit_trampoline self' = commit_trampoline self
      /\ rollback_trampoline self' = rollback_trampoline self)
  /\ (forall fn, exists self' w',
      commit_hook fn self w = (Returned self', w')
      /\ borrow_db self' = borrow_db self
      /\ update_trampoline self' = update_trampoline self
      /\ rollback_trampoline self' = rollback_trampoline self)
  /\ (forall fn, exists self' w',
      rollback_hook fn self w = (Returned self', w')
      /\ borrow_db self' = borrow_db self
      /\ update_trampoline self' = update_trampoline self
      /\ commit_trampoline self' = commit_trampoline self).
Proof.
  repeat split; intros fn.
  - rewrite update_hook_outcome. eexists _, _. now repeat split.
  - rewrite commit_hook_outcome. eexists _, _. now repeat split.
  - rewrite rollback_hook_outcome. eexists _, _. now repeat split.
Qed.

(** X9.  Registrations of different kinds commute on the connection: in
    either order they leave the same object. *)
Theorem registrations_of_different_kinds_commute u c r self w w0 :
  fst ((s <- update_hook u self ;; commit_hook c s) w)
    = fst ((s <- commit_hook c self ;; update_hook u s) w0)
  /\ fst ((s <- update_hook u self ;; rollback_hook r s) w)
     = fst ((s <- rollback_hook r self ;; update_hook u s) w0)
  /\ fst ((s <- commit_hook c self ;; rollback_hook r s) w)
     = fst ((s <- rollback_hook r self ;; commit_hook c s) w0).
Proof. repeat split. Qed.

End HookMore.

Section RegistrationMore.

Context {hdr : Sqlite3Header} {E U : Type} {api : Sqlite3Api E}.

Implicit Types (w : World E U) (self : Db (E := E) (U := U)).

(** A run of registrations whose every step records one event [ev] on the
    connection's handle and keeps the handle: the run records as many. *)
Lemma register_each_trace {F : Type} (register : F -> Db -> M E U Db)
    (ev : option addr -> Event) :
  (forall fn self w, exists self' e',
      register fn self w = (Returned self', record (ev (m_db self)) e' w)
      /\ m_db self' = m_db self) ->
  forall fns self w,
    trace (snd (register_each register fns self w))
      = trace w ++ repeat (ev (m_db self)) (length fns)
    /\ app (snd (register_each register fns self w)) = app w.
Proof.
  intros Hstep fns.
  induction fns as [|fn rest IH]; intros self w.
  - cbn. now rewrite app_nil_r.
  - cbn [register_each length repeat]. unfold bind.
    destruct (Hstep fn self w) as (self' & e' & Hrun & Hdb).
    rewrite Hrun. destruct (IH self' (record (ev (m_db self)) e' w))
      as [Htrace Happ].
    rewrite Htrace, Happ, Hdb. cbn [record trace app].
    now rewrite <- app_assoc.
Qed.

(** X10.  Each registration is one call of the engine's function for its
    kind, on the connection's handle, also when the closure is an empty
    function object, and nothing else: a run of [n] registrations adds [n]
    such events to the trace and leaves the application state alone. *)
Theorem registration_calls_engine_once_each self w :
  (forall fns : list UpdateHookFn,
      trace (snd (register_each update_hook fns self w))
        = trace w ++ repeat (EvUpdateHook (m_db self)) (length fns)
      /\ app (snd (register_each update_hook fns self w)) = app w)
  /\ (forall fns : list CommitHookFn,
      trace (snd (register_each commit_hook fns self w))
        = trace w ++ repeat (EvCommitHook (m_db self)) (length fns)
      /\ app (snd (register_each commit_hook fns self w)) = app w)
  /\ (forall fns : list RollbackHookFn,
      trace (snd (register_each rollback_hook fns self w))
        = trace w ++ repeat (EvRollbackHook (m_db self)) (length fns)
      /\ app (snd (register_each rollback_hook fns self w)) = app w).
Proof.
  repeat apply conj; intros fns.
  - apply (register_each_trace update_hook EvUpdateHook).
    intros fn s w1. rewrite update_hook_outcome. now eexists _, _.
  - apply (register_each_trace commit_hook EvCommitHook).
    intros fn s w1. rewrite commit_hook_outcome. now eexists _, _.
  - apply (register_each_trace rollback_hook EvRollbackHook).
    intros fn s w1. rewrite rollback_hook_outcome. now eexists _, _.
Qed.


End RegistrationMore.

(** * Further runs on the small engine *)

(** [open] on a path the engine opens: handle 1 is owned and outstanding. *)
Lemma open_success_owns_handle_witness :
  exists db w',
    open "app.db" (toy_world false) = (Returned db, w')
    /\ borrow_db db = Some 1%N
    /\ m_update_hook db = None /\ m_commit_hook db = None
    /\ m_rollback_hook db = None
    /\ trace w' = [EvOpen "app.db" 0x48006 0 (Some 1%N)]
    /\ outstanding_dbs (trace w') = [1%N].
Proof.
  apply (@open_success_owns_handle sqlite3_h ToyEngine (list string) toy_api
           "app.db" (toy_world false) 0 (Some 1%N)
           {| next_addr := 2; out_of_memory := false |}).
  - reflexivity.
  - reflexivity.
Defined.

(** [open_memory] with memory to spare, and without. *)
Lemma open_memory_outcome_witness :
  fst (open_memory (toy_world false)) = Returned (Db_ctor (Some 1%N))
  /\ fst (open_memory (toy_world true))
     = Threw (runtime_error "out of memory").
Proof.
  split.
  - apply (proj1 (@open_memory_outcome sqlite3_h ToyEngine (list string)
                    toy_api (toy_world false) 0 (Some 1%N)
                    {| next_addr := 2; out_of_memory := false |}
                    eq_refl)).
    reflexivity.
  - apply (proj1 (proj2 (@open_memory_outcome sqlite3_h ToyEngine
                           (list string) toy_api (toy_world true) 7 None
                           {| next_addr := 1; out_of_memory := true |}
                           eq_refl))).
    simpl. lia.
Defined.


(** [prepare] on text the engine accepts: statement 1 is held and
    outstanding. *)
Lemma prepare_success_returns_statement_witness :
  exists s w',
    prepare "SELECT 1" (toy_db None None None) (toy_world false)
      = (Returned s, w')
    /\ stmt_native s = Some 1%N
    /\ stmt_db s = toy_db None None None
    /\ trace w' = [EvPrepare (Some 1%N) "SELECT 1" 8 0 (Some 1%N)]
    /\ outstanding_stmts (trace w') = [1%N].
Proof.
  apply (@prepare_success_returns_statement sqlite3_h ToyEngine (list string)
           toy_api "SELECT 1" (toy_db None None None) (toy_world false)
           0 (Some 1%N) {| next_addr := 2; out_of_memory := false |}).
  - reflexivity.
  - reflexivity.
Defined.

(** The length passed for an eight-byte text is 8. *)
Lemma prepare_passes_byte_length_witness :
  exists nByte rc ppStmt rest,
    trace (snd (prepare "SELECT 1" (toy_db None None None) (toy_world false)))
      = EvPrepare (Some 1%N) "SELECT 1" nByte rc ppStmt :: rest
    /\ nByte = 8.
Proof.
  destruct (@prepare_passes_byte_length sqlite3_h ToyEngine (list string)
              toy_api "SELECT 1" (toy_db None None None) (toy_world false))
    as (nByte & rc & ppStmt & rest & Htrace & _ & _ & Hlen).
  exists nByte, rc, ppStmt, rest. split; [exact Htrace|].
  apply Hlen. simpl. lia.
Defined.

(** A denying commit closure: the value handed back is one of the two. *)
Lemma commit_trampoline_returns_zero_or_one_witness : 1 = 0 \/ 1 = 1.
Proof.
  apply (@commit_trampoline_returns_zero_or_one ToyEngine (list string)
           (toy_db None (Some (journal_commit "c" false)) None)
           (toy_world false) 1
           (snd (journal_commit "c" false (toy_world false)))).
  reflexivity.
Defined.

(** The exception of a failing commit closure, traced back to it. *)
Lemma trampoline_exception_origin_witness :
  exists f,
    m_commit_hook (toy_db None (Some failing_commit) None) = Some f
    /\ f (toy_world false)
       = (Threw (runtime_error "commit failed"),
          snd (failing_commit (toy_world false))).
Proof.
  apply (proj1 (proj2 (@trampoline_exception_origin sqlite3_h ToyEngine
                         (list string)
                         (toy_db None (Some failing_commit) None)
                         (toy_world false)
                         (runtime_error "commit failed")
                         (snd (failing_commit (toy_world false)))))).
  reflexivity.
Defined.

(** Code 23 with the header's values: not the first alternative, and the
    kind found is the one whose label is 23. *)
Lemma update_trampoline_never_misclassifies_witness :
  (23 <> SQLITE_INSERT /\ 23 <> SQLITE_UPDATE /\ 23 <> SQLITE_DELETE
   /\ update_trampoline (toy_db (Some (journal_update "u")) None None)
                        23 "main" "t" 5 (toy_world false)
      = (Threw (runtime_error "Unexpected update type from sqlite"),
         toy_world false))
  \/ (exists type,
        23 = match type with
             | INSERT => SQLITE_INSERT
             | UPDATE => SQLITE_UPDATE
             | DELETE => SQLITE_DELETE
             end
        /\ update_trampoline (toy_db (Some (journal_update "u")) None None)
                             23 "main" "t" 5 (toy_world false)
           = journal_update "u" type "main" "t" (static_cast_int64 5)
               (toy_world false)).
Proof.
  apply (@update_trampoline_never_misclassifies sqlite3_h ToyEngine
           (list string) (toy_db (Some (journal_update "u")) None None)
           (journal_update "u") 23 "main" "t" 5 (toy_world false)).
  reflexivity.
Defined.

(** A path with a zero byte in it: the engine is asked for the part before
    it. *)
Example open_path_with_zero_byte :
  trace (snd (open ("a" ++ String Ascii.zero "/missing/x")%string
                   (toy_world false)))
    = [EvOpen "a" 0x48006 0 (Some 1%N)].
Proof. reflexivity. Qed.
